(** * The user service of the NextgenTraining backend

    A shallow embedding of [UsersService] (users.service.ts) and of the
    collaborators it calls: the TypeORM repository of [User] rows, the
    bcrypt hasher and the JWT signer.  Every [await]ed call is run to
    completion before the next statement, so an [async] method is a
    sequential computation that either returns a value or throws (a
    rejected promise). *)

From Stdlib Require Import ZArith Ascii String List Bool DecimalString Lia.
Import ListNotations.
Local Open Scope string_scope.

(** ** JavaScript values *)

(** A string-typed property of a request body: [None] is a property that is
    absent ([undefined]), [Some s] one that holds the string [s]. *)
Definition Field := option string.

(** [!!v] for such a property: [undefined] and the empty string are falsy. *)
Definition truthy (v : Field) : bool :=
  match v with
  | None => false
  | Some s => negb (s =? "")
  end.

(** The string held by a property that passed a truthiness test. *)
Definition str (v : Field) : string :=
  match v with
  | Some s => s
  | None => ""
  end.

(** A number as [Number::toString] of ECMAScript reads it.  A finite
    non-zero number is its sign, the digits [d1...dk] of its shortest
    decimal form (k >= 1, no trailing zero) and the position [n] of the
    decimal point, the number being 0.d1...dk times 10^n: 7 is
    [Finite false "7" 1], 1.5 is [Finite false "15" 1], 10^21 is
    [Finite false "1" 22]. *)
Inductive number :=
| NaN
| Infinity (negative : bool)
| Zero
| Finite (negative : bool) (digits : string) (n : Z).

Fixpoint zeros (count : nat) : string :=
  match count with
  | O => ""
  | S count' => String "0"%char (zeros count')
  end.

(** An integer written in decimal, with "-" in front when it is negative. *)
Definition decimal (e : Z) : string := NilZero.string_of_int (Z.to_int e).

(** [`${x}`], that is [Number::toString(x)] in radix 10: plain digits while
    the decimal point lies within -5 .. 21, exponent form outside. *)
Definition Number_toString (x : number) : string :=
  match x with
  | NaN => "NaN"
  | Zero => "0"
  | Infinity negative => (if negative then "-" else "") ++ "Infinity"
  | Finite negative digits n =>
      let k := Z.of_nat (String.length digits) in
      (if negative then "-" else "")
      ++ (if (-5 <=? n)%Z && (n <=? 21)%Z
          then
            if (k <=? n)%Z
            then digits ++ zeros (Z.to_nat (n - k))
            else if (0 <? n)%Z
            then substring 0 (Z.to_nat n) digits ++ "."
                 ++ substring (Z.to_nat n) (Z.to_nat (k - n)) digits
            else "0." ++ zeros (Z.to_nat (- n)) ++ digits
          else
            let e := (n - 1)%Z in
            let exponentSign := if (e <? 0)%Z then "-" else "+" in
            if (k =? 1)%Z
            then digits ++ "e" ++ exponentSign ++ decimal (Z.abs e)
            else substring 0 1 digits ++ "."
                 ++ substring 1 (Z.to_nat (k - 1)) digits
                 ++ "e" ++ exponentSign ++ decimal (Z.abs e))
  end.

Fixpoint strip_trailing_zeros (digits : string) : string :=
  match digits with
  | "" => ""
  | String c rest =>
      match strip_trailing_zeros rest with
      | "" => if Ascii.eqb c "0" then "" else String c ""
      | rest' => String c rest'
      end
  end.

(** The number that holds the integer [z], for an integer of at most 15
    digits: every such integer is held exactly, and its digits without
    the trailing zeros are the shortest that name it. *)
Definition Number_of_Z (z : Z) : number :=
  match z with
  | Z0 => Zero
  | Zpos p =>
      Finite false (strip_trailing_zeros (decimal (Zpos p)))
             (Z.of_nat (String.length (decimal (Zpos p))))
  | Zneg p =>
      Finite true (strip_trailing_zeros (decimal (Zpos p)))
             (Z.of_nat (String.length (decimal (Zpos p))))
  end.

Inductive JsValue :=
| JsNumber (n : Z)
| JsString (s : string).

(** An object literal: its properties in the order they are written. *)
Definition JsObject := list (string * JsValue).

Fixpoint getProperty (o : JsObject) (key : string) : option JsValue :=
  match o with
  | [] => None
  | (k, v) :: o' => if k =? key then Some v else getProperty o' key
  end.

Definition keys (o : JsObject) : list string := map fst o.

(** What a [throw] or a rejected promise carries.  [catch (error)] binds a
    value of unknown type, which the handlers test with
    [error instanceof Error]. *)
Inductive Thrown :=
| ErrorInstance (message : string)
| NonError (message : option string).

Definition instanceof_Error (error : Thrown) : bool :=
  match error with
  | ErrorInstance _ => true
  | NonError _ => false
  end.

(** [error.message]: absent on a thrown value that has no such property. *)
Definition message_of (error : Thrown) : Field :=
  match error with
  | ErrorInstance message => Some message
  | NonError message => message
  end.

(** [new Error(m)]. *)
Definition Error (m : string) : Thrown := ErrorInstance m.

(** [new NotFoundException(m)] of @nestjs/common: an [HttpException], which
    extends [Error] and takes the string it is given as its [message]. *)
Definition NotFoundException (m : string) : Thrown := ErrorInstance m.

(** ** Data model *)

(** Modelled from the spec: the enum file enums/enum.ts is not among the
    sources; the role is "enumerated: user, admin, default user". *)
Module UserRoles.
Definition User : string := "user".
Definition Admin : string := "admin".

(** A string is one of the values of the enumeration. *)
Definition member (role : string) : bool := (role =? User) || (role =? Admin).
End UserRoles.

(** A stored row of the [User] entity (user.entity.ts).  [role] is declared
    [UserRoles] but holds whatever string the [as UserRoles] cast let in. *)
Module User.
Record t := mk {
    id : Z;
    firstName : string;
    lastName : string;
    email : string;
    password : string;
    role : string
  }.
End User.

(** The entity [new User()] after its five assignments in [create]: the
    generated [id] is still unset. *)
Module NewUser.
Record t := mk {
    firstName : string;
    lastName : string;
    email : string;
    password : string;
    role : string
  }.
End NewUser.

Module CreateUserDto.
Record t := mk {
    firstName : Field;
    lastName : Field;
    email : Field;
    password : Field;
    role : Field
  }.
End CreateUserDto.

Module LoginDto.
Record t := mk {
    email : Field;
    password : Field
  }.
End LoginDto.

(** The body of an update: the registration properties, each optional. *)
Module UpdateUserDto.
Definition t := CreateUserDto.t.
End UpdateUserDto.

(** model/interface.ts: [IResponse]. *)
Inductive Status := Failure | Success.

Inductive Payload :=
| null
| token (accessToken : string)
| array (userResponse : list JsObject).

Record IResponse := mkResponse {
  status : Status;
  message : string;
  code : Z;
  payload : Payload
}.

(** ** The world a service call runs in *)

(** The users table: its rows in the order [find()] yields them and the
    next value of the auto-increment key. *)
Record Store := mkStore {
  rows : list User.t;
  nextId : Z
}.

Record World := mkWorld {
  db : Store;
  console : list (string * Thrown)
}.

(** What the collaborators do during one call: the salt bcrypt draws, for
    each outside call whether it fails and with what, and what the
    database raises for a value that an enum column does not list. *)
Record Env := mkEnv {
  salt : string;
  findOne_rejects : option Thrown;
  save_rejects : option Thrown;
  find_rejects : option Thrown;
  hash_rejects : option Thrown;
  compare_rejects : option Thrown;
  sign_throws : option Thrown;
  enum_refusal : Thrown
}.

Inductive Completion (A : Type) :=
| Return (v : A)
| Throw (error : Thrown).
Arguments Return {A} v.
Arguments Throw {A} error.

Definition M (A : Type) : Type := Env -> World -> Completion A * World.

Definition ret {A} (v : A) : M A := fun _ w => (Return v, w).

Definition throw {A} (error : Thrown) : M A := fun _ w => (Throw error, w).

Definition bind {A B} (m : M A) (k : A -> M B) : M B :=
  fun env w =>
    match m env w with
    | (Return v, w') => k v env w'
    | (Throw error, w') => (Throw error, w')
    end.

(** [try { body } catch (error) { handler }]. *)
Definition try_catch {A} (body : M A) (handler : Thrown -> M A) : M A :=
  fun env w =>
    match body env w with
    | (Return v, w') => (Return v, w')
    | (Throw error, w') => handler error env w'
    end.

Definition console_error (label : string) (error : Thrown) : M unit :=
  fun _ w => (Return tt, mkWorld (db w) (console w ++ [(label, error)])).

(** An outside call that fails when the environment says so. *)
Definition outside {A} (fails : Env -> option Thrown) (run : Env -> World -> A * World)
  : M A :=
  fun env w =>
    match fails env with
    | Some error => (Throw error, w)
    | None => let (v, w') := run env w in (Return v, w')
    end.

Declare Scope service_scope.
Delimit Scope service_scope with service.
Notation "x <- c1 ;; c2" := (bind c1 (fun x => c2))
  (at level 100, c1 at next level, right associativity) : service_scope.
Notation "c1 ;; c2" := (bind c1 (fun _ => c2))
  (at level 100, right associativity) : service_scope.
Local Open Scope service_scope.

(** ** Collaborators *)

(** [Repository<User>]: the three calls the service makes. *)
Module userRepository.

  (** [findOne({ where: { email } })]: the first row with that email, or
      [null]. *)
Definition findOne (email : string) : M (option User.t) :=
    outside findOne_rejects
      (fun _ w => (List.find (fun u => User.email u =? email) (rows (db w)), w)).

  (** [save(user)] of an entity without an id: insert it under the next key
      and hand back the stored entity.  [role] is an enum column
      ([@Column({ type: 'enum', enum: UserRoles })]): the insert of a role
      that the enumeration does not list is refused by the database. *)
Definition save (user : NewUser.t) : M User.t :=
    fun env w =>
      match save_rejects env with
      | Some error => (Throw error, w)
      | None =>
          if UserRoles.member (NewUser.role user)
          then
            let s := db w in
            let saved :=
              User.mk (nextId s) (NewUser.firstName user) (NewUser.lastName user)
                      (NewUser.email user) (NewUser.password user)
                      (NewUser.role user) in
            (Return saved,
             mkWorld (mkStore (rows s ++ [saved]) (nextId s + 1)) (console w))
          else (Throw (enum_refusal env), w)
      end.

  (** [find()]: every row. *)
Definition find : M (list User.t) :=
    outside find_rejects (fun _ w => (rows (db w), w)).

End userRepository.

(** bcrypt: [digest salt rounds data] is the hash string computed from a
    drawn salt, [matches data encrypted] the comparison. *)
Module bcrypt.

Class Algorithm := {
    digest : string -> nat -> string -> string;
    matches : string -> string -> bool
  }.

Definition hash `{Algorithm} (data : string) (saltRounds : nat) : M string :=
    outside hash_rejects (fun env w => (digest (salt env) saltRounds data, w)).

Definition compare `{Algorithm} (data encrypted : string) : M bool :=
    outside compare_rejects (fun _ w => (matches data encrypted, w)).

End bcrypt.

(** [JwtService]: [encode payload] is the signed token for a claims object. *)
Module jwtService.

Class Signer := {
    encode : JsObject -> string
  }.

Definition sign `{Signer} (payload : JsObject) : M string :=
    outside sign_throws (fun _ w => (encode payload, w)).

End jwtService.

(** ** The service *)

(** An object reference ([savedUser], the [users] array) is always truthy. *)
Definition truthy_object {A} (o : A) : bool := true.

(** The object literal pushed for each row by [getAllUsers]. *)
Definition UserResponse (user : User.t) : JsObject :=
  [ ("id", JsNumber (User.id user));
    ("firstName", JsString (User.firstName user));
    ("lastName", JsString (User.lastName user));
    ("email", JsString (User.email user));
    ("role", JsString (User.role user)) ].

(** [for (const user of users) userResponse.push({...})]. *)
Definition push_all (users : list User.t) (userResponse : list JsObject)
  : list JsObject :=
  fold_left (fun acc user => (acc ++ [UserResponse user])%list) users userResponse.

(** The claims object signed at login. *)
Definition LoginPayload (user : User.t) : JsObject :=
  [ ("userId", JsNumber (User.id user));
    ("firstName", JsString (User.firstName user));
    ("lastName", JsString (User.lastName user));
    ("email", JsString (User.email user));
    ("role", JsString (User.role user)) ].

(** The [response] object every method starts from. *)
Definition response0 : IResponse := mkResponse Failure "" 400 null.

Definition with_message (response : IResponse) (m : string) : IResponse :=
  mkResponse (status response) m (code response) (payload response).

Module UsersService.
Section Service.

Context `{bcrypt.Algorithm} `{jwtService.Signer}.

  (** In each method no assignment to [response] comes before the last call
      that can throw inside the [try], so a handler finds [response] as it
      was initialised. *)

Definition create (createUserDto : CreateUserDto.t) : M IResponse :=
    let response := response0 in
    let firstName := CreateUserDto.firstName createUserDto in
    let lastName := CreateUserDto.lastName createUserDto in
    let email := CreateUserDto.email createUserDto in
    let password := CreateUserDto.password createUserDto in
    if negb (truthy firstName) || negb (truthy lastName)
       || negb (truthy email) || negb (truthy password)
    then ret (with_message response "All fields are required")
    else
      let role :=
        if truthy (CreateUserDto.role createUserDto)
        then str (CreateUserDto.role createUserDto)
        else UserRoles.User in
      userExist <- userRepository.findOne (str email) ;;
      match userExist with
      | Some _ => ret (with_message response "User with this email already exists")
      | None =>
          try_catch
            (hashedPassword <- bcrypt.hash (str password) 10 ;;
             let user :=
               NewUser.mk (str firstName) (str lastName) (str email)
                          hashedPassword role in
             savedUser <- userRepository.save user ;;
             if truthy_object savedUser
             then ret (mkResponse Success "User created successfully" 201
                                  (payload response))
             else ret response)
            (fun error =>
               console_error "Error creating user:" error ;;
               throw (Error "Error creating user"))
      end.

Definition login (loginDto : LoginDto.t) : M IResponse :=
    let response := response0 in
    let email := LoginDto.email loginDto in
    let password := LoginDto.password loginDto in
    if negb (truthy email) || negb (truthy password)
    then ret (with_message response "Email and password are required")
    else
      try_catch
        (user <- userRepository.findOne (str email) ;;
         match user with
         | None => ret (with_message response "User not found")
         | Some user =>
             isPasswordValid <- bcrypt.compare (str password) (User.password user) ;;
             if negb isPasswordValid
             then ret (with_message response "Invalid password")
             else
               let payload := LoginPayload user in
               accessToken <- jwtService.sign payload ;;
               ret (mkResponse Success "Login successful" 200 (token accessToken))
         end)
        (fun error =>
           console_error "Error during login:" error ;;
           if instanceof_Error error
           then ret (with_message response (str (message_of error)))
           else ret (with_message response "An unknown error occurred during login")).

Definition getAllUsers : M IResponse :=
    let response := response0 in
    try_catch
      (users <- userRepository.find ;;
       if truthy_object users && (0 <? length users)%nat
       then
         let userResponse := push_all users [] in
         ret (mkResponse Success "Users retrieved successfully" 200
                         (array userResponse))
       else throw (NotFoundException "No users found"))
      (fun error =>
         console_error "Error retrieving users:" error ;;
         if instanceof_Error error
         then ret (with_message response (str (message_of error)))
         else ret (with_message response
                     "An unknown error occurred while retrieving users")).

Definition findOne (id : number) : M string :=
    ret ("This action returns a #" ++ Number_toString id ++ " user").

Definition update (id : number) (updateUserDto : UpdateUserDto.t) : M string :=
    ret ("This action updates a #" ++ Number_toString id ++ " user").

Definition remove (id : number) : M string :=
    ret ("This action removes a #" ++ Number_toString id ++ " user").

End Service.
End UsersService.

(** The first version of the service kept in the history of
    users.service.ts (no hashing, no login): its [getAllUsers] overwrites
    the message of whatever it catches. *)
Module Earlier.

Definition create (createUserDto : CreateUserDto.t) : M IResponse :=
    let response := response0 in
    let firstName := CreateUserDto.firstName createUserDto in
    let lastName := CreateUserDto.lastName createUserDto in
    let email := CreateUserDto.email createUserDto in
    let password := CreateUserDto.password createUserDto in
    if negb (truthy firstName) || negb (truthy lastName)
       || negb (truthy email) || negb (truthy password)
    then ret (with_message response "All fields are required")
    else
      let role :=
        if truthy (CreateUserDto.role createUserDto)
        then str (CreateUserDto.role createUserDto)
        else UserRoles.User in
      userExist <- userRepository.findOne (str email) ;;
      match userExist with
      | Some _ => ret (with_message response "User with this email already exists")
      | None =>
          try_catch
            (let user :=
               NewUser.mk (str firstName) (str lastName) (str email)
                          (str password) role in
             savedUser <- userRepository.save user ;;
             if truthy_object savedUser
             then ret (mkResponse Success "User created successfully" 201
                                  (payload response))
             else ret response)
            (fun error =>
               console_error "Error creating user:" error ;;
               throw (Error "Error creating user"))
      end.

Definition getAllUsers : M IResponse :=
    let response := response0 in
    try_catch
      (users <- userRepository.find ;;
       if truthy_object users && (0 <? length users)%nat
       then
         let userResponse := push_all users [] in
         ret (mkResponse Success "Users retrieved successfully" 200
                         (array userResponse))
       else throw (NotFoundException "No users found"))
      (fun error =>
         console_error "Error retrieving users:" error ;;
         ret (with_message response "Error retrieving users")).

End Earlier.

(** ** Reading the outcome of a call *)

Definition initial_store : Store := mkStore [] 1.

Definition initial_world : World := mkWorld initial_store [].

(** An environment in which no outside call fails. *)
Definition calm (salt : string) : Env :=
  mkEnv salt None None None None None None
        (ErrorInstance "invalid input value for enum").

(** The role [create] resolves for a request body. *)
Definition resolved_role (createUserDto : CreateUserDto.t) : string :=
  if truthy (CreateUserDto.role createUserDto)
  then str (CreateUserDto.role createUserDto)
  else UserRoles.User.

(** The four required properties of a registration are all truthy. *)
Definition required_present (createUserDto : CreateUserDto.t) : bool :=
  truthy (CreateUserDto.firstName createUserDto)
  && truthy (CreateUserDto.lastName createUserDto)
  && truthy (CreateUserDto.email createUserDto)
  && truthy (CreateUserDto.password createUserDto).

(** The well-formedness every returned envelope is checked against. *)
Definition envelope_ok (r : IResponse) : Prop :=
  (status r = Success <-> code r = 200%Z \/ code r = 201%Z)
  /\ (status r = Failure -> code r = 400%Z /\ payload r = null).

(** The envelopes that [create], [login] and [getAllUsers] can hand back,
    from any request in any world under any behaviour of the collaborators. *)
Inductive service_returns `{bcrypt.Algorithm} `{jwtService.Signer}
  : IResponse -> Prop :=
| returned_by_create dto env w r w' :
    UsersService.create dto env w = (Return r, w') -> service_returns r
| returned_by_login dto env w r w' :
    UsersService.login dto env w = (Return r, w') -> service_returns r
| returned_by_getAllUsers env w r w' :
    UsersService.getAllUsers env w = (Return r, w') -> service_returns r.

(** What a catching handler writes into [response.message]. *)
Definition folded_message (fallback : string) (error : Thrown) : string :=
  match error with
  | ErrorInstance message => message
  | NonError _ => fallback
  end.

(** ** A small hasher and signer to run the service on *)

Module Sample.

(** The digest keeps the data behind a marker and in front of the salt; it
    stands in for bcrypt where a concrete algorithm is needed. *)
#[export] Instance hasher : bcrypt.Algorithm := {|
  bcrypt.digest := fun salt _ data => String "$"%char (data ++ "$" ++ salt);
  bcrypt.matches := fun data encrypted =>
    match encrypted with
    | String "$"%char rest => prefix (data ++ "$") rest
    | _ => false
    end
|}.

#[export] Instance signer : jwtService.Signer := {|
  jwtService.encode := fun payload =>
    match getProperty payload "email" with
    | Some (JsString e) => "jwt." ++ e
    | _ => "jwt."
    end
|}.

Definition jane : CreateUserDto.t :=
  CreateUserDto.mk (Some "Jane") (Some "Doe") (Some "jane@x.com")
                   (Some "secret123") None.

Definition jane_row : User.t :=
  User.mk 1 "Jane" "Doe" "jane@x.com" "$secret123$NaCl" "user".

Definition one_user : World := mkWorld (mkStore [jane_row] 2) [].

Definition sam : CreateUserDto.t :=
  CreateUserDto.mk (Some "Sam") (Some "Roe") (Some "sam@x.com")
                   (Some "hunter2") (Some "admin").

Definition superuser : CreateUserDto.t :=
  CreateUserDto.mk (Some "Sam") (Some "Roe") (Some "sam@x.com")
                   (Some "hunter2") (Some "superadmin").

Definition flaky_save : Env :=
  mkEnv "NaCl" None (Some (ErrorInstance "connection lost")) None None None None
        (ErrorInstance "invalid input value for enum").

Definition flaky_lookup : Env :=
  mkEnv "NaCl" (Some (ErrorInstance "connection lost")) None None None None None
        (ErrorInstance "invalid input value for enum").

(** A lookup that rejects with a plain object [{ message: "db down" }]. *)
Definition odd_lookup : Env :=
  mkEnv "NaCl" (Some (NonError (Some "db down"))) None None None None None
        (ErrorInstance "invalid input value for enum").

End Sample.

(** ** Calls made one after another *)

(** A call a client can make on the service. *)
Inductive Request :=
| Create (createUserDto : CreateUserDto.t)
| Login (loginDto : LoginDto.t)
| GetAllUsers
| FindOne (id : number)
| Update (id : number) (updateUserDto : UpdateUserDto.t)
| Remove (id : number).

Section Serving.

Context `{bcrypt.Algorithm} `{jwtService.Signer}.

(** The world a call leaves behind, whatever it returned or threw. *)
Definition serve (req : Request) (env : Env) (w : World) : World :=
  match req with
  | Create dto => snd (UsersService.create dto env w)
  | Login dto => snd (UsersService.login dto env w)
  | GetAllUsers => snd (UsersService.getAllUsers env w)
  | FindOne id => snd (UsersService.findOne id env w)
  | Update id dto => snd (UsersService.update id dto env w)
  | Remove id => snd (UsersService.remove id env w)
  end.

(** Calls served in turn, each under its own behaviour of the collaborators. *)
Fixpoint serve_all (calls : list (Request * Env)) (w : World) : World :=
  match calls with
  | [] => w
  | (req, env) :: rest => serve_all rest (serve req env w)
  end.

End Serving.

(** Emails and keys are pairwise distinct, every key is below the next one
    to be handed out, and no row has an empty name, email or role. *)
Definition store_ok (s : Store) : Prop :=
  NoDup (map User.email (rows s))
  /\ NoDup (map User.id (rows s))
  /\ Forall (fun u => (User.id u < nextId s)%Z) (rows s)
  /\ Forall (fun u => User.firstName u <> "" /\ User.lastName u <> ""
                      /\ User.email u <> "" /\ User.role u <> "")
            (rows s).

(** A row with its password blanked, to compare stores up to passwords. *)
Definition without_password (u : User.t) : User.t :=
  User.mk (User.id u) (User.firstName u) (User.lastName u) (User.email u)
          "" (User.role u).

(** The registrations of a list succeed in turn when each passes the guard,
    the three outside calls it makes answer, and the role it resolves is
    one the enum column lists. *)
Definition registers (reg : CreateUserDto.t * Env) : Prop :=
  required_present (fst reg) = true
  /\ findOne_rejects (snd reg) = None
  /\ hash_rejects (snd reg) = None
  /\ save_rejects (snd reg) = None
  /\ UserRoles.member (resolved_role (fst reg)) = true.

Definition as_call (reg : CreateUserDto.t * Env) : Request * Env :=
  (Create (fst reg), snd reg).

Definition email_of (reg : CreateUserDto.t * Env) : string :=
  str (CreateUserDto.email (fst reg)).

(** ** Proof steps shared by the properties below *)

(** Unfold the calls of a method down to the tests on the environment. *)
Ltac run_service :=
  unfold userRepository.findOne, userRepository.save, userRepository.find,
    bcrypt.hash, bcrypt.compare, jwtService.sign;
  unfold bind, try_catch, outside, ret, throw, console_error;
  cbn [negb].

Ltac run_service_in H :=
  unfold userRepository.findOne, userRepository.save, userRepository.find,
    bcrypt.hash, bcrypt.compare, jwtService.sign in H;
  unfold bind, try_catch, outside, ret, throw, console_error in H.

Ltac split_match H :=
  repeat match type of H with
         | context [match ?x with _ => _ end] =>
             lazymatch x with
             | context [match _ with _ => _ end] => fail
             | _ => destruct x; cbn iota beta in H
             end
         end.

Ltac settle_envelope H :=
  inversion H; subst; unfold envelope_ok; simpl;
  repeat split; try discriminate; intros; try discriminate;
  try (left; reflexivity); try (right; reflexivity);
  try (match goal with
       | Hc : _ \/ _ |- _ => destruct Hc; discriminate
       end).

(** * Properties of the service *)

(** ** Truthiness, lookup and the response loop *)

Lemma falsy_cases (v : Field) :
  truthy v = false <-> v = None \/ v = Some "".
Proof.
  destruct v as [s|]; simpl.
  - rewrite negb_false_iff, String.eqb_eq. split.
    + intros ->. now right.
    + intros [Hn|Hs]; [discriminate|now inversion Hs].
  - split; [now left|reflexivity].
Qed.

Lemma lookup_absent (email : string) (l : list User.t) :
  (forall u, In u l -> User.email u <> email) ->
  find (fun u => User.email u =? email) l = None.
Proof.
  induction l as [|u l IH]; intros Hno; simpl; [reflexivity|].
  destruct (String.eqb_spec (User.email u) email) as [Heq|_].
  - exfalso. apply (Hno u); [now left|exact Heq].
  - apply IH. intros u' Hin. apply Hno. now right.
Qed.

Lemma lookup_present (email : string) (l : list User.t) :
  (exists u, In u l /\ User.email u = email) ->
  exists u, find (fun u => User.email u =? email) l = Some u
            /\ In u l /\ User.email u = email.
Proof.
  intros [u [Hin Heq]].
  destruct (find (fun u => User.email u =? email) l) as [u'|] eqn:Hfind.
  - exists u'. apply find_some in Hfind as [Hin' Heq'].
    apply String.eqb_eq in Heq'. auto.
  - exfalso. apply (find_none _ _ Hfind) in Hin.
    rewrite Heq, String.eqb_refl in Hin. discriminate.
Qed.

Lemma push_all_map (users : list User.t) (acc : list JsObject) :
  push_all users acc = (acc ++ map UserResponse users)%list.
Proof.
  unfold push_all. revert acc.
  induction users as [|u users IH]; intros acc; simpl.
  - now rewrite app_nil_r.
  - rewrite IH, <- app_assoc. reflexivity.
Qed.

Lemma UserResponse_shape (user : User.t) :
  keys (UserResponse user) = ["id"; "firstName"; "lastName"; "email"; "role"]
  /\ getProperty (UserResponse user) "id" = Some (JsNumber (User.id user))
  /\ getProperty (UserResponse user) "firstName" = Some (JsString (User.firstName user))
  /\ getProperty (UserResponse user) "lastName" = Some (JsString (User.lastName user))
  /\ getProperty (UserResponse user) "email" = Some (JsString (User.email user))
  /\ getProperty (UserResponse user) "role" = Some (JsString (User.role user))
  /\ getProperty (UserResponse user) "password" = None.
Proof. repeat split. Qed.

(** ** The sample hasher and signer obey what is asked of bcrypt and JWT *)


Lemma sample_matches_digest (salt : string) (rounds : nat) (data : string) :
  @bcrypt.matches Sample.hasher data
    (@bcrypt.digest Sample.hasher salt rounds data) = true.
Proof.
  simpl. induction data as [|c data IH]; simpl.
  - now destruct salt.
  - destruct (ascii_dec c c) as [_|Hne]; [exact IH|now elim Hne].
Qed.


Lemma sample_encode_nonempty (payload : JsObject) :
  @jwtService.encode Sample.signer payload <> "".
Proof.
  simpl. destruct (getProperty payload "email") as [[n|e]|]; discriminate.
Qed.

(** ** Registration *)

Section Registration.

Context `{bcrypt.Algorithm} `{jwtService.Signer}.

Lemma required_present_false (dto : CreateUserDto.t) :
  required_present dto = false <->
  truthy (CreateUserDto.firstName dto) = false
  \/ truthy (CreateUserDto.lastName dto) = false
  \/ truthy (CreateUserDto.email dto) = false
  \/ truthy (CreateUserDto.password dto) = false.
Proof.
  unfold required_present. rewrite !andb_false_iff. tauto.
Qed.

(** The guard of [create] is the negation of [required_present]. *)
Lemma create_guard (dto : CreateUserDto.t) :
  negb (truthy (CreateUserDto.firstName dto))
  || negb (truthy (CreateUserDto.lastName dto))
  || negb (truthy (CreateUserDto.email dto))
  || negb (truthy (CreateUserDto.password dto))
  = negb (required_present dto).
Proof.
  unfold required_present.
  now rewrite !negb_andb.
Qed.

(** What a registration that passes both checks does when no outside call
    fails and its role is one the column lists: one row is appended under
    the next key, holding the digest of the password and the resolved
    role, and the 201 envelope comes back. *)
Lemma create_inserts (dto : CreateUserDto.t) (env : Env) (w : World) :
  required_present dto = true ->
  find (fun u => User.email u =? str (CreateUserDto.email dto)) (rows (db w)) = None ->
  findOne_rejects env = None ->
  hash_rejects env = None ->
  save_rejects env = None ->
  UserRoles.member (resolved_role dto) = true ->
  UsersService.create dto env w
  = (Return (mkResponse Success "User created successfully" 201 null),
     mkWorld
       (mkStore
          (rows (db w)
           ++ [User.mk (nextId (db w))
                       (str (CreateUserDto.firstName dto))
                       (str (CreateUserDto.lastName dto))
                       (str (CreateUserDto.email dto))
                       (bcrypt.digest (salt env) 10 (str (CreateUserDto.password dto)))
                       (resolved_role dto)])
          (nextId (db w) + 1))
       (console w)).
Proof.
  intros Hreq Hfind Hf Hh Hs Hrole.
  unfold UsersService.create. rewrite create_guard, Hreq.
  run_service. rewrite Hf, Hfind, Hh, Hs. cbn [NewUser.role].
  fold (resolved_role dto). rewrite Hrole. reflexivity.
Qed.

Lemma resolved_role_sent (dto : CreateUserDto.t) (r : string) :
  CreateUserDto.role dto = Some r -> r <> "" -> resolved_role dto = r.
Proof.
  intros Hr Hne. unfold resolved_role. rewrite Hr. simpl.
  destruct (String.eqb_spec r "") as [->|_]; [now elim Hne|reflexivity].
Qed.

(** What the same registration does when its role is not one the column
    lists: the refusal of the insert is logged and the generic error is
    thrown; the table is as before. *)
Lemma create_refused_role (dto : CreateUserDto.t) (env : Env) (w : World) :
  required_present dto = true ->
  find (fun u => User.email u =? str (CreateUserDto.email dto)) (rows (db w)) = None ->
  findOne_rejects env = None ->
  hash_rejects env = None ->
  save_rejects env = None ->
  UserRoles.member (resolved_role dto) = false ->
  UsersService.create dto env w
  = (Throw (Error "Error creating user"),
     mkWorld (db w) (console w ++ [("Error creating user:", enum_refusal env)])).
Proof.
  intros Hreq Hfind Hf Hh Hs Hrole.
  unfold UsersService.create. rewrite create_guard, Hreq.
  run_service. rewrite Hf, Hfind, Hh, Hs. cbn [NewUser.role].
  fold (resolved_role dto). rewrite Hrole. reflexivity.
Qed.

(** C3: a registration in which at least one of first name, last name,
    email and password is empty (absent or the empty string), whichever
    and however many they are, gets back Failure/400 "All fields are
    required"; the call returns, nothing is thrown, and no outside call is
    made, so this holds whatever the collaborators would have done. *)
Theorem create_missing_field (dto : CreateUserDto.t) (env : Env) (w : World) :
  truthy (CreateUserDto.firstName dto) = false
  \/ truthy (CreateUserDto.lastName dto) = false
  \/ truthy (CreateUserDto.email dto) = false
  \/ truthy (CreateUserDto.password dto) = false ->
  UsersService.create dto env w
  = (Return (mkResponse Failure "All fields are required" 400 null), w).
Proof.
  intros Hmissing. apply required_present_false in Hmissing.
  unfold UsersService.create. rewrite create_guard, Hmissing. reflexivity.
Qed.

(** C4: when a row with the email of the request is already stored, a
    registration (with its required fields present, the lookup answering)
    gets back Failure/400 "User with this email already exists" and the
    world, the users table included, is left as it was. *)
Theorem create_duplicate_email (dto : CreateUserDto.t) (env : Env) (w : World) :
  required_present dto = true ->
  findOne_rejects env = None ->
  (exists u, In u (rows (db w))
             /\ User.email u = str (CreateUserDto.email dto)) ->
  UsersService.create dto env w
  = (Return (mkResponse Failure "User with this email already exists" 400 null),
     w).
Proof.
  intros Hreq Hf Hex.
  apply lookup_present in Hex as [u [Hfind _]].
  unfold UsersService.create. rewrite create_guard, Hreq.
  run_service. rewrite Hf, Hfind. reflexivity.
Qed.


(** C10, as the code has it.  [create] never compares the role with the
    enumeration: an absent or empty role becomes "user", and any other
    role is handed to [save] as it was sent.  For a registration that
    reaches the save (required fields present, email new, lookup and
    hasher answering, the save not failing otherwise), a role the
    enumeration lists is the role of the row that is stored; a role it
    does not list is refused by the enum column of the table, which
    [create] turns into its generic thrown error after logging the
    refusal, and no row is stored. *)
Theorem create_role_unchecked (dto : CreateUserDto.t) (env : Env) (w : World) :
  required_present dto = true ->
  (forall u, In u (rows (db w))
             -> User.email u <> str (CreateUserDto.email dto)) ->
  findOne_rejects env = None ->
  hash_rejects env = None ->
  save_rejects env = None ->
  (CreateUserDto.role dto = None \/ CreateUserDto.role dto = Some "" ->
   exists saved,
     UsersService.create dto env w
     = (Return (mkResponse Success "User created successfully" 201 null),
        mkWorld (mkStore (rows (db w) ++ [saved]) (nextId (db w) + 1))
                (console w))
     /\ User.role saved = "user")
  /\ (forall r,
         CreateUserDto.role dto = Some r -> r <> "" ->
         UserRoles.member r = true ->
         exists saved,
           UsersService.create dto env w
           = (Return (mkResponse Success "User created successfully" 201 null),
              mkWorld (mkStore (rows (db w) ++ [saved]) (nextId (db w) + 1))
                      (console w))
           /\ User.role saved = r)
  /\ (forall r,
         CreateUserDto.role dto = Some r -> r <> "" ->
         UserRoles.member r = false ->
         UsersService.create dto env w
         = (Throw (Error "Error creating user"),
            mkWorld (db w)
                    (console w ++ [("Error creating user:", enum_refusal env)]))).
Proof.
  intros Hreq Hnew Hf Hh Hs.
  pose proof (lookup_absent _ _ Hnew) as Hfind.
  split; [|split].
  - intros Hfalsy. apply falsy_cases in Hfalsy.
    assert (Hrole : resolved_role dto = "user")
      by (unfold resolved_role; now rewrite Hfalsy).
    eexists. split.
    + apply create_inserts; auto. now rewrite Hrole.
    + exact Hrole.
  - intros r Hr Hne Hlisted.
    pose proof (resolved_role_sent dto r Hr Hne) as Hrole.
    eexists. split.
    + apply create_inserts; auto. now rewrite Hrole.
    + exact Hrole.
  - intros r Hr Hne Hunlisted.
    apply create_refused_role; auto.
    now rewrite (resolved_role_sent dto r Hr Hne).
Qed.

End Registration.

(** ** Login *)

Section Login.

Context `{bcrypt.Algorithm} `{jwtService.Signer}.

Lemma login_guard (dto : LoginDto.t) (env : Env) (w : World) :
  truthy (LoginDto.email dto) = false \/ truthy (LoginDto.password dto) = false ->
  UsersService.login dto env w
  = (Return (mkResponse Failure "Email and password are required" 400 null), w).
Proof.
  intros Hmissing. unfold UsersService.login.
  destruct Hmissing as [-> | ->]; simpl; [|rewrite orb_true_r]; reflexivity.
Qed.

(** Past the guard, [login] is its [try] statement. *)
Lemma login_past_guard (dto : LoginDto.t) :
  truthy (LoginDto.email dto) = true ->
  truthy (LoginDto.password dto) = true ->
  negb (truthy (LoginDto.email dto)) || negb (truthy (LoginDto.password dto))
  = false.
Proof. now intros -> ->. Qed.

Lemma login_unknown_email (dto : LoginDto.t) (env : Env) (w : World) :
  truthy (LoginDto.email dto) = true ->
  truthy (LoginDto.password dto) = true ->
  findOne_rejects env = None ->
  find (fun u => User.email u =? str (LoginDto.email dto)) (rows (db w)) = None ->
  UsersService.login dto env w
  = (Return (mkResponse Failure "User not found" 400 null), w).
Proof.
  intros He Hp Hf Hfind. unfold UsersService.login.
  rewrite (login_past_guard dto He Hp). run_service.
  rewrite Hf, Hfind. reflexivity.
Qed.

Lemma login_checks_password (dto : LoginDto.t) (env : Env) (w : World) (user : User.t) :
  truthy (LoginDto.email dto) = true ->
  truthy (LoginDto.password dto) = true ->
  findOne_rejects env = None ->
  compare_rejects env = None ->
  sign_throws env = None ->
  find (fun u => User.email u =? str (LoginDto.email dto)) (rows (db w)) = Some user ->
  UsersService.login dto env w
  = (Return
       (if bcrypt.matches (str (LoginDto.password dto)) (User.password user)
        then mkResponse Success "Login successful" 200
                        (token (jwtService.encode (LoginPayload user)))
        else mkResponse Failure "Invalid password" 400 null),
     w).
Proof.
  intros He Hp Hf Hc Hs Hfind. unfold UsersService.login.
  rewrite (login_past_guard dto He Hp). run_service.
  rewrite Hf, Hfind, Hc.
  destruct (bcrypt.matches _ _); cbn [negb]; [rewrite Hs|]; reflexivity.
Qed.

(** C2: the four outcomes of [login] while the repository, the hasher and
    the signer answer, each case read after the ones before it as the
    method tests them.  An empty email or password gives Failure/400
    "Email and password are required"; otherwise an email that no row has
    gives Failure/400 "User not found"; otherwise a password that the
    comparison rejects against the hash of the row found gives Failure/400
    "Invalid password"; otherwise the answer is Success/200 "Login
    successful" with the signed token of that row's claims as payload, a
    non-empty string since the signer never yields the empty one.  The
    world is left as it was in all four. *)
Theorem login_outcomes (dto : LoginDto.t) (env : Env) (w : World) :
  (forall payload, jwtService.encode payload <> "") ->
  findOne_rejects env = None ->
  compare_rejects env = None ->
  sign_throws env = None ->
  (truthy (LoginDto.email dto) = false \/ truthy (LoginDto.password dto) = false ->
   UsersService.login dto env w
   = (Return (mkResponse Failure "Email and password are required" 400 null), w))
  /\ (truthy (LoginDto.email dto) = true ->
      truthy (LoginDto.password dto) = true ->
      (forall u, In u (rows (db w)) -> User.email u <> str (LoginDto.email dto)) ->
      UsersService.login dto env w
      = (Return (mkResponse Failure "User not found" 400 null), w))
  /\ (forall user,
         truthy (LoginDto.email dto) = true ->
         truthy (LoginDto.password dto) = true ->
         find (fun u => User.email u =? str (LoginDto.email dto)) (rows (db w))
         = Some user ->
         bcrypt.matches (str (LoginDto.password dto)) (User.password user) = false ->
         UsersService.login dto env w
         = (Return (mkResponse Failure "Invalid password" 400 null), w))
  /\ (forall user,
         truthy (LoginDto.email dto) = true ->
         truthy (LoginDto.password dto) = true ->
         find (fun u => User.email u =? str (LoginDto.email dto)) (rows (db w))
         = Some user ->
         bcrypt.matches (str (LoginDto.password dto)) (User.password user) = true ->
         exists accessToken,
           UsersService.login dto env w
           = (Return (mkResponse Success "Login successful" 200 (token accessToken)),
              w)
           /\ accessToken = jwtService.encode (LoginPayload user)
           /\ accessToken <> "").
Proof.
  intros Hsigned Hf Hc Hs. repeat split.
  - apply login_guard.
  - intros He Hp Hnone. apply login_unknown_email; auto using lookup_absent.
  - intros user He Hp Hfind Hbad.
    rewrite (login_checks_password dto env w user); auto. now rewrite Hbad.
  - intros user He Hp Hfind Hgood. eexists. split; [|split; [reflexivity|apply Hsigned]].
    rewrite (login_checks_password dto env w user); auto. now rewrite Hgood.
Qed.

End Login.

(** ** Listing users *)

Lemma getAllUsers_answers (env : Env) (w : World) :
  find_rejects env = None ->
  rows (db w) <> [] ->
  UsersService.getAllUsers env w
  = (Return (mkResponse Success "Users retrieved successfully" 200
                        (array (map UserResponse (rows (db w))))),
     w).
Proof.
  intros Hf Hrows. unfold UsersService.getAllUsers. run_service.
  rewrite Hf. destruct (rows (db w)) as [|u us] eqn:Hl; [now elim Hrows|].
  simpl. now rewrite push_all_map.
Qed.

(** C5, as the code has it: on an empty users table (the query itself
    answering) [getAllUsers] returns Failure/400 with a null payload and
    the message "No users found", the message of the not-found exception
    its handler caught and logged; it is the earlier version of the method
    that overwrote the message with the generic "Error retrieving users". *)
Theorem getAllUsers_empty_store (env : Env) (w : World) :
  find_rejects env = None ->
  rows (db w) = [] ->
  UsersService.getAllUsers env w
  = (Return (mkResponse Failure "No users found" 400 null),
     mkWorld (db w)
             (console w
              ++ [("Error retrieving users:", NotFoundException "No users found")]))
  /\ Earlier.getAllUsers env w
     = (Return (mkResponse Failure "Error retrieving users" 400 null),
        mkWorld (db w)
                (console w
                 ++ [("Error retrieving users:", NotFoundException "No users found")])).
Proof.
  intros Hf Hrows.
  unfold UsersService.getAllUsers, Earlier.getAllUsers. run_service.
  rewrite Hf, Hrows. split; reflexivity.
Qed.

(** C6: on a users table of N > 0 rows (the query answering)
    [getAllUsers] returns Success/200 with an array of exactly N entries;
    the entry at each position is built from the row at that position and
    has the five properties id, firstName, lastName, email and role, with
    the row's values, and no password property.  The world is unchanged. *)
Theorem getAllUsers_lists_every_row (env : Env) (w : World) :
  find_rejects env = None ->
  rows (db w) <> [] ->
  exists entries,
    UsersService.getAllUsers env w
    = (Return (mkResponse Success "Users retrieved successfully" 200
                          (array entries)),
       w)
    /\ length entries = length (rows (db w))
    /\ forall i user,
        nth_error (rows (db w)) i = Some user ->
        exists entry,
          nth_error entries i = Some entry
          /\ keys entry = ["id"; "firstName"; "lastName"; "email"; "role"]
          /\ getProperty entry "id" = Some (JsNumber (User.id user))
          /\ getProperty entry "firstName" = Some (JsString (User.firstName user))
          /\ getProperty entry "lastName" = Some (JsString (User.lastName user))
          /\ getProperty entry "email" = Some (JsString (User.email user))
          /\ getProperty entry "role" = Some (JsString (User.role user))
          /\ getProperty entry "password" = None.
Proof.
  intros Hf Hrows. exists (map UserResponse (rows (db w))).
  split; [now apply getAllUsers_answers|].
  split; [apply length_map|].
  intros i user Hnth. exists (UserResponse user).
  split; [now apply map_nth_error|apply UserResponse_shape].
Qed.

(** ** Placeholders *)

Lemma zeros_length (count : nat) : String.length (zeros count) = count.
Proof. induction count as [|count IH]; simpl; [reflexivity|now rewrite IH]. Qed.






(** Ids that are not integers of at most 15 digits, rendered as a template
    literal renders them: NaN, 1.5, 10^21 and -0.000000125. *)
Example unusual_ids_sentences :
  fst (UsersService.findOne NaN (calm "") Sample.one_user)
  = Return "This action returns a #NaN user"
  /\ fst (UsersService.findOne (Finite false "15" 1) (calm "") Sample.one_user)
     = Return "This action returns a #1.5 user"
  /\ fst (UsersService.remove (Finite false "1" 22) (calm "") Sample.one_user)
     = Return "This action removes a #1e+21 user"
  /\ fst (UsersService.update (Finite true "125" (-6)) Sample.jane (calm "")
             Sample.one_user)
     = Return "This action updates a #-1.25e-7 user".
Proof. repeat split. Qed.

(** ** What happens to a failure of a collaborator *)

Section ErrorPropagation.

Context `{bcrypt.Algorithm} `{jwtService.Signer}.

Lemma create_save_fails (dto : CreateUserDto.t) (env : Env) (w : World)
    (error : Thrown) :
  required_present dto = true ->
  find (fun u => User.email u =? str (CreateUserDto.email dto)) (rows (db w)) = None ->
  findOne_rejects env = None ->
  hash_rejects env = None ->
  save_rejects env = Some error ->
  UsersService.create dto env w
  = (Throw (Error "Error creating user"),
     mkWorld (db w) (console w ++ [("Error creating user:", error)])).
Proof.
  intros Hreq Hfind Hf Hh Hs.
  unfold UsersService.create. rewrite create_guard, Hreq.
  run_service. rewrite Hf, Hfind, Hh, Hs. reflexivity.
Qed.

Lemma login_lookup_fails (dto : LoginDto.t) (env : Env) (w : World)
    (error : Thrown) :
  truthy (LoginDto.email dto) = true ->
  truthy (LoginDto.password dto) = true ->
  findOne_rejects env = Some error ->
  UsersService.login dto env w
  = (Return (mkResponse Failure
               (folded_message "An unknown error occurred during login" error)
               400 null),
     mkWorld (db w) (console w ++ [("Error during login:", error)])).
Proof.
  intros He Hp Hf. unfold UsersService.login.
  rewrite (login_past_guard dto He Hp). run_service.
  rewrite Hf. now destruct error.
Qed.

Lemma login_verification_fails (dto : LoginDto.t) (env : Env) (w : World)
    (user : User.t) (error : Thrown) :
  truthy (LoginDto.email dto) = true ->
  truthy (LoginDto.password dto) = true ->
  findOne_rejects env = None ->
  find (fun u => User.email u =? str (LoginDto.email dto)) (rows (db w)) = Some user ->
  compare_rejects env = Some error ->
  UsersService.login dto env w
  = (Return (mkResponse Failure
               (folded_message "An unknown error occurred during login" error)
               400 null),
     mkWorld (db w) (console w ++ [("Error during login:", error)])).
Proof.
  intros He Hp Hf Hfind Hc. unfold UsersService.login.
  rewrite (login_past_guard dto He Hp). run_service.
  rewrite Hf, Hfind, Hc. now destruct error.
Qed.

(** [login] returns an envelope whatever the request, the world and the
    behaviour of the collaborators. *)
Lemma login_returns (dto : LoginDto.t) (env : Env) (w : World) :
  exists r w', UsersService.login dto env w = (Return r, w').
Proof.
  unfold UsersService.login.
  destruct (negb (truthy (LoginDto.email dto))
            || negb (truthy (LoginDto.password dto))).
  - run_service. eauto.
  - run_service.
    destruct (findOne_rejects env) as [e|].
    { destruct (instanceof_Error e); eauto. }
    destruct (find _ (rows (db w))) as [user|]; [|eauto].
    destruct (compare_rejects env) as [e|].
    { destruct (instanceof_Error e); eauto. }
    destruct (bcrypt.matches _ _); cbn [negb]; [|eauto].
    destruct (sign_throws env) as [e|]; [|eauto].
    destruct (instanceof_Error e); eauto.
Qed.

(** C7, as the code has it.  When the [save] of a registration that
    passed both checks fails, [create] logs what it caught and throws a
    fresh [Error "Error creating user"]: no envelope is returned.  [login]
    always returns an envelope; when its lookup or its password
    comparison fails, that envelope is Failure/400 with a null payload
    whose message is the message of the caught value if that value is an
    [Error] instance, and the fixed "An unknown error occurred during
    login" if it is anything else. *)
Theorem error_propagation :
  (forall dto env w error,
      required_present dto = true ->
      (forall u, In u (rows (db w))
                 -> User.email u <> str (CreateUserDto.email dto)) ->
      findOne_rejects env = None ->
      hash_rejects env = None ->
      save_rejects env = Some error ->
      UsersService.create dto env w
      = (Throw (Error "Error creating user"),
         mkWorld (db w) (console w ++ [("Error creating user:", error)])))
  /\ (forall dto env w, exists r w', UsersService.login dto env w = (Return r, w'))
  /\ (forall dto env w error,
         truthy (LoginDto.email dto) = true ->
         truthy (LoginDto.password dto) = true ->
         findOne_rejects env = Some error
         \/ (findOne_rejects env = None
             /\ (exists u, In u (rows (db w))
                           /\ User.email u = str (LoginDto.email dto))
             /\ compare_rejects env = Some error) ->
         exists r w',
           UsersService.login dto env w = (Return r, w')
           /\ status r = Failure /\ code r = 400%Z /\ payload r = null
           /\ (forall m, error = ErrorInstance m -> message r = m)
           /\ (forall v, error = NonError v
                         -> message r = "An unknown error occurred during login")).
Proof.
  split; [|split].
  - intros dto env w error Hreq Hnew Hf Hh Hs.
    apply create_save_fails; auto using lookup_absent.
  - apply login_returns.
  - intros dto env w error He Hp [Hf | [Hf [Hex Hc]]].
    + do 2 eexists. split; [apply (login_lookup_fails dto env w error); assumption|].
      simpl. repeat split; intros ? ->; reflexivity.
    + apply lookup_present in Hex as [user [Hfind _]].
      do 2 eexists.
      split; [apply (login_verification_fails dto env w user error); assumption|].
      simpl. repeat split; intros ? ->; reflexivity.
Qed.

(** ** The envelope invariant *)

(** C9: whatever the request, the world and the behaviour of the
    collaborators, an envelope returned by [create], [login] or
    [getAllUsers] has status Success exactly when its code is 200 or 201,
    and a Failure envelope has code 400 and a null payload. *)
Theorem envelope_invariant (r : IResponse) :
  service_returns r -> envelope_ok r.
Proof.
  intros [dto env w r' w' Hrun | dto env w r' w' Hrun | env w r' w' Hrun].
  - unfold UsersService.create in Hrun. run_service_in Hrun.
    split_match Hrun; settle_envelope Hrun.
  - unfold UsersService.login in Hrun. run_service_in Hrun.
    split_match Hrun; settle_envelope Hrun.
  - unfold UsersService.getAllUsers in Hrun. run_service_in Hrun.
    split_match Hrun; settle_envelope Hrun.
Qed.

End ErrorPropagation.

(** * Further properties of the service *)

(** ** Every way a registration can end *)

Ltac split_goal_match :=
  repeat match goal with
         | |- context [match ?x with _ => _ end] =>
             lazymatch x with
             | context [match _ with _ => _ end] => fail
             | _ => destruct x; cbn
             end
         end.

Section RegistrationOutcomes.

Context `{bcrypt.Algorithm} `{jwtService.Signer}.

(** X1: the lookup of [create] stands outside its [try]: when it rejects,
    a registration that passed the guard throws the very value the lookup
    rejected with (not the generic error), writes nothing to the console
    and stores nothing. *)
Theorem create_lookup_failure (dto : CreateUserDto.t) (env : Env) (w : World)
    (error : Thrown) :
  required_present dto = true ->
  findOne_rejects env = Some error ->
  UsersService.create dto env w = (Throw error, w).
Proof.
  intros Hreq Hf. unfold UsersService.create. rewrite create_guard, Hreq.
  run_service. rewrite Hf. reflexivity.
Qed.

(** X2: when hashing fails, [create] never reaches [save]: it logs what it
    caught, throws the generic [Error "Error creating user"], and the
    users table is as before. *)
Theorem create_hash_failure (dto : CreateUserDto.t) (env : Env) (w : World)
    (error : Thrown) :
  required_present dto = true ->
  (forall u, In u (rows (db w))
             -> User.email u <> str (CreateUserDto.email dto)) ->
  findOne_rejects env = None ->
  hash_rejects env = Some error ->
  UsersService.create dto env w
  = (Throw (Error "Error creating user"),
     mkWorld (db w) (console w ++ [("Error creating user:", error)])).
Proof.
  intros Hreq Hnew Hf Hh. unfold UsersService.create.
  rewrite create_guard, Hreq. run_service.
  rewrite Hf, (lookup_absent _ _ Hnew), Hh. reflexivity.
Qed.

(** X3: a registration stores a row exactly when it returns the Success
    envelope.  Whatever the request and the collaborators do, either
    [create] returns Success/201 and the table has grown by one row at its
    end, keyed with the next id, the rows before it untouched; or the
    table is exactly as before and anything returned is a Failure. *)
Theorem create_persists_iff_success (dto : CreateUserDto.t) (env : Env) (w : World) :
  (exists saved,
      UsersService.create dto env w
      = (Return (mkResponse Success "User created successfully" 201 null),
         mkWorld (mkStore (rows (db w) ++ [saved]) (nextId (db w) + 1))
                 (console w))
      /\ User.id saved = nextId (db w))
  \/ (db (snd (UsersService.create dto env w)) = db w
      /\ forall r, fst (UsersService.create dto env w) = Return r
                   -> status r = Failure).
Proof.
  unfold UsersService.create. run_service. cbn.
  split_goal_match;
    solve [ left; eexists; split; reflexivity
          | right; split; [reflexivity|intros r Hr; inversion Hr; reflexivity]
          | right; split; [reflexivity|intros r Hr; discriminate Hr] ].
Qed.

(** X4: the first version of [create] stores the password as it was sent.
    For a registration that gets through (its role one the enum column
    lists), the appended row's password is the request's password itself,
    and the envelope is the same Success/201. *)
Theorem Earlier_create_stores_plaintext (dto : CreateUserDto.t) (env : Env)
    (w : World) :
  required_present dto = true ->
  (forall u, In u (rows (db w))
             -> User.email u <> str (CreateUserDto.email dto)) ->
  findOne_rejects env = None ->
  save_rejects env = None ->
  UserRoles.member (resolved_role dto) = true ->
  Earlier.create dto env w
  = (Return (mkResponse Success "User created successfully" 201 null),
     mkWorld
       (mkStore
          (rows (db w)
           ++ [User.mk (nextId (db w))
                       (str (CreateUserDto.firstName dto))
                       (str (CreateUserDto.lastName dto))
                       (str (CreateUserDto.email dto))
                       (str (CreateUserDto.password dto))
                       (resolved_role dto)])
          (nextId (db w) + 1))
       (console w)).
Proof.
  intros Hreq Hnew Hf Hs Hrole. unfold Earlier.create.
  rewrite create_guard, Hreq. run_service.
  rewrite Hf, (lookup_absent _ _ Hnew), Hs. cbn [NewUser.role].
  fold (resolved_role dto). rewrite Hrole. reflexivity.
Qed.

(** X5: hashing is the only difference between the two versions of
    [create].  Whenever the hasher answers, they return or throw the same
    thing, write the same console lines, hand out the same key, and leave
    tables that are equal row by row once the passwords are blanked. *)
Theorem create_versions_agree (dto : CreateUserDto.t) (env : Env) (w : World) :
  hash_rejects env = None ->
  fst (UsersService.create dto env w) = fst (Earlier.create dto env w)
  /\ console (snd (UsersService.create dto env w))
     = console (snd (Earlier.create dto env w))
  /\ nextId (db (snd (UsersService.create dto env w)))
     = nextId (db (snd (Earlier.create dto env w)))
  /\ map without_password (rows (db (snd (UsersService.create dto env w))))
     = map without_password (rows (db (snd (Earlier.create dto env w)))).
Proof.
  destruct env as [salt0 lookup saving query hashing comparing signing refusal].
  cbn [hash_rejects]. intros ->.
  unfold UsersService.create, Earlier.create. run_service.
  split_goal_match; repeat split;
    rewrite ?map_app; reflexivity.
Qed.

End RegistrationOutcomes.

(** ** Login and listing under every behaviour of the collaborators *)

Section Queries.

Context `{bcrypt.Algorithm} `{jwtService.Signer}.

(** X6: [login] grants nothing without valid credentials.  Whatever the
    collaborators do, a Success envelope comes back only when a stored row
    has the request's (non-empty) email and the comparison accepts the
    request's password against that row's hash; the payload is then the
    token signed for that row's claims, and the world is unchanged. *)
Theorem login_success_sound (dto : LoginDto.t) (env : Env) (w w' : World)
    (r : IResponse) :
  UsersService.login dto env w = (Return r, w') ->
  status r = Success ->
  exists user,
    In user (rows (db w))
    /\ User.email user = str (LoginDto.email dto)
    /\ str (LoginDto.email dto) <> ""
    /\ bcrypt.matches (str (LoginDto.password dto)) (User.password user) = true
    /\ r = mkResponse Success "Login successful" 200
                      (token (jwtService.encode (LoginPayload user)))
    /\ w' = w.
Proof.
  intros Hrun Hs. unfold UsersService.login in Hrun.
  destruct (truthy (LoginDto.email dto)) eqn:He;
    [|inversion Hrun; subst; discriminate].
  destruct (truthy (LoginDto.password dto)) eqn:Hp;
    [|inversion Hrun; subst; discriminate].
  cbn [negb orb] in Hrun. run_service_in Hrun.
  destruct (findOne_rejects env) as [e|].
  { destruct (instanceof_Error e); inversion Hrun; subst; discriminate. }
  destruct (find _ (rows (db w))) as [user|] eqn:Hfind;
    [|inversion Hrun; subst; discriminate].
  destruct (compare_rejects env) as [e|].
  { destruct (instanceof_Error e); inversion Hrun; subst; discriminate. }
  destruct (bcrypt.matches _ _) eqn:Hm; cbn [negb] in Hrun;
    [|inversion Hrun; subst; discriminate].
  destruct (sign_throws env) as [e|].
  { destruct (instanceof_Error e); inversion Hrun; subst; discriminate. }
  inversion Hrun; subst. apply find_some in Hfind as [Hin Heq].
  apply String.eqb_eq in Heq. exists user. repeat split; auto.
  intros Hempty. destruct (LoginDto.email dto) as [s|]; [|discriminate He].
  simpl in Hempty, He. subst s. discriminate He.
Qed.

(** X7: a signer that throws does not escape [login] either: with the
    row found and the password accepted, the failure of [sign] is logged
    and folded into a Failure/400 envelope with a null payload, so no
    token is handed out; the users table is untouched. *)
Theorem login_sign_failure (dto : LoginDto.t) (env : Env) (w : World)
    (user : User.t) (error : Thrown) :
  truthy (LoginDto.email dto) = true ->
  truthy (LoginDto.password dto) = true ->
  findOne_rejects env = None ->
  compare_rejects env = None ->
  find (fun u => User.email u =? str (LoginDto.email dto)) (rows (db w)) = Some user ->
  bcrypt.matches (str (LoginDto.password dto)) (User.password user) = true ->
  sign_throws env = Some error ->
  UsersService.login dto env w
  = (Return (mkResponse Failure
               (folded_message "An unknown error occurred during login" error)
               400 null),
     mkWorld (db w) (console w ++ [("Error during login:", error)])).
Proof.
  intros He Hp Hf Hc Hfind Hm Hs. unfold UsersService.login.
  rewrite (login_past_guard dto He Hp). run_service.
  rewrite Hf, Hfind, Hc, Hm. cbn [negb]. rewrite Hs. now destruct error.
Qed.

(** X8: [login] and both versions of [getAllUsers] only read the users
    table: whatever the request and whatever the collaborators do, the
    table after the call is the table before it. *)
Theorem queries_leave_store (env : Env) (w : World) :
  (forall dto, db (snd (UsersService.login dto env w)) = db w)
  /\ db (snd (UsersService.getAllUsers env w)) = db w
  /\ db (snd (Earlier.getAllUsers env w)) = db w.
Proof.
  split; [|split].
  - intros dto. unfold UsersService.login. run_service.
    split_goal_match; reflexivity.
  - unfold UsersService.getAllUsers. run_service.
    split_goal_match; reflexivity.
  - unfold Earlier.getAllUsers. run_service.
    split_goal_match; reflexivity.
Qed.

(** X9: when the query behind [getAllUsers] itself fails, the method
    still returns: a Failure/400 envelope with a null payload, after
    logging what it caught.  The current version puts the caught
    [Error]'s message in the envelope (or a fixed text for any other
    thrown value); the first version always writes "Error retrieving
    users". *)
Theorem getAllUsers_query_failure (env : Env) (w : World) (error : Thrown) :
  find_rejects env = Some error ->
  UsersService.getAllUsers env w
  = (Return (mkResponse Failure
               (folded_message
                  "An unknown error occurred while retrieving users" error)
               400 null),
     mkWorld (db w) (console w ++ [("Error retrieving users:", error)]))
  /\ Earlier.getAllUsers env w
     = (Return (mkResponse Failure "Error retrieving users" 400 null),
        mkWorld (db w) (console w ++ [("Error retrieving users:", error)])).
Proof.
  intros Hf. unfold UsersService.getAllUsers, Earlier.getAllUsers.
  run_service. rewrite Hf. split; [now destruct error|reflexivity].
Qed.

(** X10: the two versions of [getAllUsers] differ in nothing but the
    message of a Failure: under every behaviour of the query they leave
    the same world and return envelopes with the same status, code and
    payload, and on Success the same message too. *)
Theorem getAllUsers_versions_agree (env : Env) (w : World) :
  exists r r',
    UsersService.getAllUsers env w
    = (Return r, snd (Earlier.getAllUsers env w))
    /\ fst (Earlier.getAllUsers env w) = Return r'
    /\ status r = status r' /\ code r = code r' /\ payload r = payload r'
    /\ (status r = Success -> message r = message r').
Proof.
  unfold UsersService.getAllUsers, Earlier.getAllUsers. run_service.
  destruct (find_rejects env) as [e|].
  - destruct e; cbn; do 2 eexists; repeat split; discriminate.
  - destruct (rows (db w)) as [|u us]; cbn; do 2 eexists; repeat split;
      discriminate.
Qed.

End Queries.

(** ** Calls in sequence *)

Lemma find_snoc {A} (f : A -> bool) (l : list A) (x : A) :
  find f l = None -> f x = true -> find f (l ++ [x]) = Some x.
Proof.
  induction l as [|a l IH]; simpl; intros Hnone Hx.
  - now rewrite Hx.
  - destruct (f a); [discriminate|auto].
Qed.

Lemma NoDup_snoc {A} (l : list A) (x : A) :
  NoDup l -> ~ In x l -> NoDup (l ++ [x]).
Proof.
  induction 1 as [|a l Hnotin Hnodup IH]; simpl; intros Hx.
  - constructor; [tauto|constructor].
  - constructor.
    + rewrite in_app_iff. simpl. intros [Hin|[Heq|[]]]; [tauto|].
      apply Hx. now left.
    + apply IH. tauto.
Qed.

Lemma truthy_nonempty (v : Field) : truthy v = true -> str v <> "".
Proof.
  destruct v as [s|]; simpl; [|discriminate].
  intros Hs ->. discriminate Hs.
Qed.

Lemma resolved_role_nonempty (dto : CreateUserDto.t) : resolved_role dto <> "".
Proof.
  unfold resolved_role. destruct (truthy (CreateUserDto.role dto)) eqn:Hr.
  - now apply truthy_nonempty.
  - discriminate.
Qed.

Section Sequences.

Context `{bcrypt.Algorithm} `{jwtService.Signer}.

(** The table after [create]: as before, or with the one row of a request
    that passed the guard and whose email the lookup did not find. *)
Lemma create_store_cases (dto : CreateUserDto.t) (env : Env) (w : World) :
  db (snd (UsersService.create dto env w)) = db w
  \/ (required_present dto = true
      /\ find (fun u => User.email u =? str (CreateUserDto.email dto))
              (rows (db w)) = None
      /\ db (snd (UsersService.create dto env w))
         = mkStore
             (rows (db w)
              ++ [User.mk (nextId (db w))
                          (str (CreateUserDto.firstName dto))
                          (str (CreateUserDto.lastName dto))
                          (str (CreateUserDto.email dto))
                          (bcrypt.digest (salt env) 10
                             (str (CreateUserDto.password dto)))
                          (resolved_role dto)])
             (nextId (db w) + 1)).
Proof.
  destruct (required_present dto) eqn:Hreq.
  2:{ left. unfold UsersService.create. now rewrite create_guard, Hreq. }
  destruct (findOne_rejects env) as [e|] eqn:Hf.
  { left. unfold UsersService.create. rewrite create_guard, Hreq.
    run_service. now rewrite Hf. }
  destruct (find (fun u => User.email u =? str (CreateUserDto.email dto))
              (rows (db w))) as [u|] eqn:Hfind.
  { left. unfold UsersService.create. rewrite create_guard, Hreq.
    run_service. now rewrite Hf, Hfind. }
  destruct (hash_rejects env) as [e|] eqn:Hh.
  { left. unfold UsersService.create. rewrite create_guard, Hreq.
    run_service. now rewrite Hf, Hfind, Hh. }
  destruct (save_rejects env) as [e|] eqn:Hs.
  { left. now rewrite (create_save_fails dto env w e Hreq Hfind Hf Hh Hs). }
  destruct (UserRoles.member (resolved_role dto)) eqn:Hrole.
  2:{ left. now rewrite (create_refused_role dto env w Hreq Hfind Hf Hh Hs Hrole). }
  right. repeat split; auto.
  now rewrite (create_inserts dto env w Hreq Hfind Hf Hh Hs Hrole).
Qed.

Lemma create_keeps_store_ok (dto : CreateUserDto.t) (env : Env) (w : World) :
  store_ok (db w) -> store_ok (db (snd (UsersService.create dto env w))).
Proof.
  intros Hok.
  destruct (create_store_cases dto env w) as [-> | [Hreq [Hfind ->]]]; [exact Hok|].
  destruct Hok as [Hemails [Hids [Hbelow Hfilled]]].
  unfold required_present in Hreq. rewrite !andb_true_iff in Hreq.
  destruct Hreq as [[[Hfn Hln] Hem] Hpw].
  unfold store_ok. cbn [rows nextId]. rewrite !map_app. cbn [map].
  cbn [User.email User.id]. repeat split.
  - apply NoDup_snoc; [exact Hemails|].
    rewrite in_map_iff. intros [u [Heq Hin]].
    apply (find_none _ _ Hfind) in Hin. cbn in Hin.
    rewrite Heq, String.eqb_refl in Hin. discriminate.
  - apply NoDup_snoc; [exact Hids|].
    rewrite in_map_iff. intros [u [Heq Hin]].
    rewrite Forall_forall in Hbelow. apply Hbelow in Hin. lia.
  - apply Forall_app. split.
    + eapply Forall_impl; [|exact Hbelow]. cbn. intros u Hu. lia.
    + constructor; [cbn; lia|constructor].
  - apply Forall_app. split; [exact Hfilled|].
    constructor; [|constructor]. cbn.
    auto using truthy_nonempty, resolved_role_nonempty.
Qed.

Lemma login_reads_only (dto : LoginDto.t) (env : Env) (w : World) :
  db (snd (UsersService.login dto env w)) = db w.
Proof.
  unfold UsersService.login. run_service. split_goal_match; reflexivity.
Qed.

Lemma getAllUsers_reads_only (env : Env) (w : World) :
  db (snd (UsersService.getAllUsers env w)) = db w.
Proof.
  unfold UsersService.getAllUsers. run_service. split_goal_match; reflexivity.
Qed.

(** A registration whose email the lookup finds is turned away. *)
Lemma create_finds_row (dto : CreateUserDto.t) (env : Env) (w : World)
    (u : User.t) :
  required_present dto = true ->
  findOne_rejects env = None ->
  find (fun u => User.email u =? str (CreateUserDto.email dto)) (rows (db w))
  = Some u ->
  UsersService.create dto env w
  = (Return (mkResponse Failure "User with this email already exists" 400 null),
     w).
Proof.
  intros Hreq Hf Hfind. unfold UsersService.create.
  rewrite create_guard, Hreq. run_service. now rewrite Hf, Hfind.
Qed.

Lemma serve_keeps_store_ok (req : Request) (env : Env) (w : World) :
  store_ok (db w) -> store_ok (db (serve req env w)).
Proof.
  intros Hok. destruct req as [dto|dto| |id|id dto|id]; cbn [serve].
  - now apply create_keeps_store_ok.
  - now rewrite login_reads_only.
  - now rewrite getAllUsers_reads_only.
  - exact Hok.
  - exact Hok.
  - exact Hok.
Qed.

(** X11: the service keeps its table well formed.  From a table whose
    emails are pairwise distinct, whose keys are pairwise distinct and
    below the next key, and whose rows have no empty name, email or role,
    any sequence of calls served one after another, with any requests and
    any failures of the collaborators along the way, ends in a table with
    the same properties. *)
Theorem store_invariant (calls : list (Request * Env)) (w : World) :
  store_ok (db w) -> store_ok (db (serve_all calls w)).
Proof.
  revert w. induction calls as [|[req env] calls IH]; intros w Hok; cbn.
  - exact Hok.
  - apply IH. now apply serve_keeps_store_ok.
Qed.

(** X12: what is registered can log in.  After a registration that got
    through (its role, sent or defaulted, one the enum column lists), a
    login with the same email and password (the lookup, the comparison
    and the signer answering) returns Success/200 with the token signed
    for the claims of the new row: the key it was given, the names and
    email of the request and the role [create] resolved.  The fact used
    of the hasher is that a digest verifies against its data. *)
Theorem register_then_login (dto : CreateUserDto.t) (env env' : Env) (w : World) :
  (forall salt rounds data,
      bcrypt.matches data (bcrypt.digest salt rounds data) = true) ->
  required_present dto = true ->
  (forall u, In u (rows (db w))
             -> User.email u <> str (CreateUserDto.email dto)) ->
  findOne_rejects env = None ->
  hash_rejects env = None ->
  save_rejects env = None ->
  UserRoles.member (resolved_role dto) = true ->
  findOne_rejects env' = None ->
  compare_rejects env' = None ->
  sign_throws env' = None ->
  UsersService.login
    (LoginDto.mk (CreateUserDto.email dto) (CreateUserDto.password dto))
    env' (snd (UsersService.create dto env w))
  = (Return
       (mkResponse Success "Login successful" 200
          (token
             (jwtService.encode
                [ ("userId", JsNumber (nextId (db w)));
                  ("firstName", JsString (str (CreateUserDto.firstName dto)));
                  ("lastName", JsString (str (CreateUserDto.lastName dto)));
                  ("email", JsString (str (CreateUserDto.email dto)));
                  ("role", JsString (resolved_role dto)) ]))),
     snd (UsersService.create dto env w)).
Proof.
  intros Hverify Hreq Hnew Hf Hh Hs Hrole Hf' Hc' Hs'.
  pose proof (lookup_absent _ _ Hnew) as Hfind.
  rewrite (create_inserts dto env w Hreq Hfind Hf Hh Hs Hrole). cbn [snd].
  unfold required_present in Hreq. rewrite !andb_true_iff in Hreq.
  destruct Hreq as [[[_ _] Hem] Hpw].
  erewrite login_checks_password; cbn [LoginDto.email LoginDto.password];
    try eassumption.
  2:{ cbn [db rows]. apply find_snoc; [exact Hfind|].
      cbn. apply String.eqb_refl. }
  cbn [User.password]. rewrite Hverify. reflexivity.
Qed.

(** X13: the second registration of an email is turned away.  After a
    registration that got through (its role one the enum column lists),
    any further registration with the same
    email (its required fields present, the lookup answering) returns
    Failure/400 "User with this email already exists" and changes
    nothing: the table holds exactly one row more than before the first. *)
Theorem register_twice (dto dto' : CreateUserDto.t) (env env' : Env) (w : World) :
  required_present dto = true ->
  (forall u, In u (rows (db w))
             -> User.email u <> str (CreateUserDto.email dto)) ->
  findOne_rejects env = None ->
  hash_rejects env = None ->
  save_rejects env = None ->
  UserRoles.member (resolved_role dto) = true ->
  required_present dto' = true ->
  str (CreateUserDto.email dto') = str (CreateUserDto.email dto) ->
  findOne_rejects env' = None ->
  UsersService.create dto' env' (snd (UsersService.create dto env w))
  = (Return (mkResponse Failure "User with this email already exists" 400 null),
     snd (UsersService.create dto env w))
  /\ length (rows (db (snd (UsersService.create dto env w))))
     = S (length (rows (db w))).
Proof.
  intros Hreq Hnew Hf Hh Hs Hrole Hreq' Hsame Hf'.
  pose proof (lookup_absent _ _ Hnew) as Hfind.
  rewrite (create_inserts dto env w Hreq Hfind Hf Hh Hs Hrole). cbn [snd]. split.
  - eapply create_finds_row; auto. cbn [db rows].
    apply find_snoc.
    + rewrite Hsame. exact Hfind.
    + cbn. rewrite Hsame. apply String.eqb_refl.
  - cbn [db rows]. rewrite length_app. cbn. lia.
Qed.

End Sequences.

Section Registrations.

Context `{bcrypt.Algorithm} `{jwtService.Signer}.

(** Registrations with pairwise distinct emails, none of them stored yet,
    each append their row: emails in the order of the requests, keys
    counted up from the next key. *)
Lemma registrations_append (regs : list (CreateUserDto.t * Env)) (w : World) :
  Forall registers regs ->
  NoDup (map email_of regs) ->
  (forall reg u, In reg regs -> In u (rows (db w)) -> User.email u <> email_of reg) ->
  exists added,
    serve_all (map as_call regs) w
    = mkWorld (mkStore (rows (db w) ++ added)
                       (nextId (db w) + Z.of_nat (length regs)))
              (console w)
    /\ map User.email added = map email_of regs
    /\ map User.id added
       = map (fun i => (nextId (db w) + Z.of_nat i)%Z) (seq 0 (length regs)).
Proof.
  revert w. induction regs as [|[dto env] regs IH]; intros w Hregs Hdistinct Hnew.
  - exists []. cbn. rewrite app_nil_r, Z.add_0_r. now destruct w as [[? ?] ?].
  - inversion Hregs as [|? ? [Hreq [Hf [Hh [Hs Hrole]]]] Hrest]; subst.
    inversion Hdistinct as [|? ? Hhead Htail]; subst.
    cbn [fst snd] in Hreq, Hf, Hh, Hs, Hrole.
    assert (Hfind : find (fun u => User.email u =? str (CreateUserDto.email dto))
                      (rows (db w)) = None).
    { apply lookup_absent. intros u Hu. apply (Hnew (dto, env) u); [now left|exact Hu]. }
    cbn [map as_call fst snd serve_all serve].
    rewrite (create_inserts dto env w Hreq Hfind Hf Hh Hs Hrole). cbn [snd].
    destruct (IH (mkWorld
                    (mkStore
                       (rows (db w)
                        ++ [User.mk (nextId (db w))
                              (str (CreateUserDto.firstName dto))
                              (str (CreateUserDto.lastName dto))
                              (str (CreateUserDto.email dto))
                              (bcrypt.digest (salt env) 10
                                 (str (CreateUserDto.password dto)))
                              (resolved_role dto)])
                       (nextId (db w) + 1))
                    (console w)) Hrest Htail)
      as [added [Hrun [Hemails Hkeys]]].
    { cbn [db rows]. intros reg u Hreg Hu. apply in_app_or in Hu as [Hu|[<-|[]]].
      - apply (Hnew reg u); [now right|exact Hu].
      - cbn. intros Heq. apply Hhead. rewrite in_map_iff.
        exists reg. split; [now rewrite <- Heq|exact Hreg]. }
    cbn [db rows nextId console] in Hrun, Hkeys.
    eexists (_ :: added). split; [|split].
    + rewrite Hrun, <- app_assoc. cbn [app length].
      do 2 f_equal. lia.
    + cbn [map User.email]. now rewrite Hemails.
    + cbn [map User.id length seq]. rewrite Hkeys, <- seq_shift, map_map.
      f_equal; [cbn; lia|].
      apply map_ext. intros i. lia.
Qed.

(** X14: listing after N registrations.  When N >= 1 registrations with
    pairwise distinct emails, none of them stored before, are served in
    turn (each passing the guard, its outside calls answering, its role
    one the enum column lists), the table
    gains exactly N rows after the old ones, with the emails of the
    requests in order and the keys counted up from the next key, and a
    [getAllUsers] whose query answers then returns Success/200 with as
    many entries as there were old rows plus N. *)
Theorem listing_after_registrations (regs : list (CreateUserDto.t * Env))
    (env : Env) (w : World) :
  Forall registers regs ->
  NoDup (map email_of regs) ->
  (forall reg u, In reg regs -> In u (rows (db w)) -> User.email u <> email_of reg) ->
  regs <> [] ->
  find_rejects env = None ->
  exists added entries,
    rows (db (serve_all (map as_call regs) w)) = (rows (db w) ++ added)%list
    /\ map User.email added = map email_of regs
    /\ map User.id added
       = map (fun i => (nextId (db w) + Z.of_nat i)%Z) (seq 0 (length regs))
    /\ UsersService.getAllUsers env (serve_all (map as_call regs) w)
       = (Return (mkResponse Success "Users retrieved successfully" 200
                             (array entries)),
          serve_all (map as_call regs) w)
    /\ length entries = (length (rows (db w)) + length regs)%nat.
Proof.
  intros Hregs Hdistinct Hnew Hsome Hf.
  destruct (registrations_append regs w Hregs Hdistinct Hnew)
    as [added [Hrun [Hemails Hkeys]]].
  assert (Hlen : length added = length regs).
  { rewrite <- (length_map User.email added), Hemails. apply length_map. }
  exists added, (map UserResponse (rows (db w) ++ added)).
  rewrite Hrun. cbn [db rows]. repeat split; auto.
  - rewrite <- Hrun. rewrite getAllUsers_answers; [now rewrite Hrun|exact Hf|].
    rewrite Hrun. cbn [db rows]. destruct regs; [now elim Hsome|].
    destruct added; [discriminate Hlen|]. now destruct (rows (db w)).
  - rewrite length_map, length_app. lia.
Qed.

End Registrations.

(** * The service run on concrete requests *)

Import Sample.


Lemma login_outcomes_witness :
  UsersService.login (LoginDto.mk (Some "jane@x.com") (Some "")) (calm "") one_user
  = (Return (mkResponse Failure "Email and password are required" 400 null),
     one_user)
  /\ UsersService.login (LoginDto.mk (Some "joe@x.com") (Some "secret123"))
       (calm "") one_user
     = (Return (mkResponse Failure "User not found" 400 null), one_user)
  /\ UsersService.login (LoginDto.mk (Some "jane@x.com") (Some "secret12"))
       (calm "") one_user
     = (Return (mkResponse Failure "Invalid password" 400 null), one_user)
  /\ exists accessToken,
      UsersService.login (LoginDto.mk (Some "jane@x.com") (Some "secret123"))
        (calm "") one_user
      = (Return (mkResponse Success "Login successful" 200 (token accessToken)),
         one_user)
      /\ accessToken = jwtService.encode (LoginPayload jane_row)
      /\ accessToken <> "".
Proof.
  split; [|split; [|split]].
  - apply (login_outcomes (LoginDto.mk (Some "jane@x.com") (Some "")) (calm "")
             one_user sample_encode_nonempty eq_refl eq_refl eq_refl).
    right. reflexivity.
  - apply (login_outcomes (LoginDto.mk (Some "joe@x.com") (Some "secret123"))
             (calm "") one_user sample_encode_nonempty eq_refl eq_refl eq_refl).
    + reflexivity.
    + reflexivity.
    + simpl. intros u [<-|[]]. discriminate.
  - apply (login_outcomes (LoginDto.mk (Some "jane@x.com") (Some "secret12"))
             (calm "") one_user sample_encode_nonempty eq_refl eq_refl eq_refl)
      with (user := jane_row); reflexivity.
  - apply (login_outcomes (LoginDto.mk (Some "jane@x.com") (Some "secret123"))
             (calm "") one_user sample_encode_nonempty eq_refl eq_refl eq_refl);
      reflexivity.
Defined.

(** Last name absent and password empty. *)
Lemma create_missing_field_witness :
  UsersService.create
    (CreateUserDto.mk (Some "Jane") None (Some "jane@x.com") (Some "") None)
    flaky_lookup one_user
  = (Return (mkResponse Failure "All fields are required" 400 null), one_user).
Proof.
  apply (create_missing_field
           (CreateUserDto.mk (Some "Jane") None (Some "jane@x.com") (Some "") None)
           flaky_lookup one_user).
  right. left. reflexivity.
Defined.

(** Jane registers a second time. *)
Lemma create_duplicate_email_witness :
  UsersService.create jane (calm "KCl") one_user
  = (Return (mkResponse Failure "User with this email already exists" 400 null),
     one_user).
Proof.
  apply (create_duplicate_email jane (calm "KCl") one_user).
  - reflexivity.
  - reflexivity.
  - exists jane_row. split; [left|]; reflexivity.
Defined.

Lemma getAllUsers_empty_store_witness :
  UsersService.getAllUsers (calm "") initial_world
  = (Return (mkResponse Failure "No users found" 400 null),
     mkWorld initial_store
             [("Error retrieving users:", ErrorInstance "No users found")])
  /\ Earlier.getAllUsers (calm "") initial_world
     = (Return (mkResponse Failure "Error retrieving users" 400 null),
        mkWorld initial_store
                [("Error retrieving users:", ErrorInstance "No users found")]).
Proof.
  apply (getAllUsers_empty_store (calm "") initial_world); reflexivity.
Defined.

(** C5 as the spec words it fails on the empty table: the envelope is a
    Failure, yet its message is the text the claim excludes. *)
Lemma getAllUsers_empty_keeps_detail :
  exists r w',
    UsersService.getAllUsers (calm "") initial_world = (Return r, w')
    /\ rows (db initial_world) = []
    /\ status r = Failure
    /\ ~ message r <> "No users found".
Proof.
  do 2 eexists. split; [reflexivity|]. simpl.
  repeat split. intros Hne. now apply Hne.
Qed.

Lemma getAllUsers_lists_every_row_witness :
  exists entries,
    UsersService.getAllUsers (calm "") one_user
    = (Return (mkResponse Success "Users retrieved successfully" 200
                          (array entries)),
       one_user)
    /\ length entries = 1%nat
    /\ forall i user,
        nth_error [jane_row] i = Some user ->
        exists entry,
          nth_error entries i = Some entry
          /\ keys entry = ["id"; "firstName"; "lastName"; "email"; "role"]
          /\ getProperty entry "id" = Some (JsNumber (User.id user))
          /\ getProperty entry "firstName" = Some (JsString (User.firstName user))
          /\ getProperty entry "lastName" = Some (JsString (User.lastName user))
          /\ getProperty entry "email" = Some (JsString (User.email user))
          /\ getProperty entry "role" = Some (JsString (User.role user))
          /\ getProperty entry "password" = None.
Proof.
  apply (getAllUsers_lists_every_row (calm "") one_user).
  - reflexivity.
  - simpl. discriminate.
Defined.

Lemma error_propagation_witness :
  UsersService.create jane flaky_save initial_world
  = (Throw (Error "Error creating user"),
     mkWorld initial_store
             [("Error creating user:", ErrorInstance "connection lost")])
  /\ (exists r w',
         UsersService.login (LoginDto.mk (Some "jane@x.com") (Some "secret123"))
           flaky_lookup one_user
         = (Return r, w')
         /\ status r = Failure /\ code r = 400%Z /\ payload r = null
         /\ message r = "connection lost")
  /\ (exists r w',
         UsersService.login (LoginDto.mk (Some "jane@x.com") (Some "secret123"))
           odd_lookup one_user
         = (Return r, w')
         /\ status r = Failure /\ code r = 400%Z /\ payload r = null
         /\ message r = "An unknown error occurred during login").
Proof.
  destruct error_propagation as [Hcreate [_ Hlogin]].
  split; [|split].
  - apply (Hcreate jane flaky_save initial_world (ErrorInstance "connection lost"));
      try reflexivity.
    simpl. intros u [].
  - destruct (Hlogin (LoginDto.mk (Some "jane@x.com") (Some "secret123"))
                flaky_lookup one_user (ErrorInstance "connection lost")
                eq_refl eq_refl (or_introl eq_refl))
      as [r [w' [Hrun [Hs [Hc [Hp [Hm _]]]]]]].
    exists r, w'. repeat split; auto.
  - destruct (Hlogin (LoginDto.mk (Some "jane@x.com") (Some "secret123"))
                odd_lookup one_user (NonError (Some "db down"))
                eq_refl eq_refl (or_introl eq_refl))
      as [r [w' [Hrun [Hs [Hc [Hp [_ Hm]]]]]]].
    exists r, w'. repeat split; eauto.
Defined.

(** C7 as the spec words it fails when what the lookup rejects with is not
    an [Error] instance: the caught object has the message "db down", and
    the envelope's message is another text. *)
Lemma login_drops_message_of_non_error :
  exists r w',
    UsersService.login (LoginDto.mk (Some "jane@x.com") (Some "secret123"))
      odd_lookup one_user
    = (Return r, w')
    /\ findOne_rejects odd_lookup = Some (NonError (Some "db down"))
    /\ message_of (NonError (Some "db down")) = Some "db down"
    /\ status r = Failure
    /\ message r <> "db down".
Proof.
  do 2 eexists. split; [reflexivity|]. simpl.
  repeat split. discriminate.
Qed.

Lemma envelope_invariant_witness :
  envelope_ok (mkResponse Success "User created successfully" 201 null)
  /\ envelope_ok (mkResponse Failure "Invalid password" 400 null)
  /\ envelope_ok (mkResponse Failure "No users found" 400 null).
Proof.
  split; [|split]; apply envelope_invariant.
  - apply (returned_by_create jane (calm "NaCl") initial_world _
             (mkWorld (mkStore [jane_row] 2) [])).
    reflexivity.
  - apply (returned_by_login (LoginDto.mk (Some "jane@x.com") (Some "secret12"))
             (calm "") one_user _ one_user).
    reflexivity.
  - apply (returned_by_getAllUsers (calm "") initial_world _
             (mkWorld initial_store
                [("Error retrieving users:", ErrorInstance "No users found")])).
    reflexivity.
Defined.

(** A missing role becomes "user"; "admin" is stored as sent; "superadmin"
    is handed to the save, which the column refuses. *)
Lemma create_role_unchecked_witness :
  (exists saved,
      UsersService.create jane (calm "NaCl") initial_world
      = (Return (mkResponse Success "User created successfully" 201 null),
         mkWorld (mkStore [saved] 2) [])
      /\ User.role saved = "user")
  /\ (exists saved,
         UsersService.create sam (calm "NaCl") one_user
         = (Return (mkResponse Success "User created successfully" 201 null),
            mkWorld (mkStore [jane_row; saved] 3) [])
         /\ User.role saved = "admin")
  /\ UsersService.create superuser (calm "NaCl") one_user
     = (Throw (Error "Error creating user"),
        mkWorld (mkStore [jane_row] 2)
                [("Error creating user:",
                  ErrorInstance "invalid input value for enum")]).
Proof.
  assert (Hnone : forall u, In u (rows (db initial_world))
                            -> User.email u <> str (CreateUserDto.email jane))
    by (simpl; intros u []).
  assert (Hjane : forall dto, str (CreateUserDto.email dto) = "sam@x.com" ->
                  forall u, In u (rows (db one_user))
                            -> User.email u <> str (CreateUserDto.email dto))
    by (intros dto -> u [<-|[]]; discriminate).
  split; [|split].
  - destruct (create_role_unchecked jane (calm "NaCl") initial_world
                eq_refl Hnone eq_refl eq_refl eq_refl) as [Hdefault _].
    apply Hdefault. left. reflexivity.
  - destruct (create_role_unchecked sam (calm "NaCl") one_user
                eq_refl (Hjane sam eq_refl) eq_refl eq_refl eq_refl)
      as [_ [Hlisted _]].
    apply (Hlisted "admin"); [reflexivity|discriminate|reflexivity].
  - destruct (create_role_unchecked superuser (calm "NaCl") one_user
                eq_refl (Hjane superuser eq_refl) eq_refl eq_refl eq_refl)
      as [_ [_ Hunlisted]].
    apply (Hunlisted "superadmin"); [reflexivity|discriminate|reflexivity].
Defined.

(** C10 as the spec words it fails for a role the enumeration does not
    list: the registration of "superadmin" stores no row at all, and
    [create] throws. *)
Lemma create_refuses_unlisted_role :
  CreateUserDto.role superuser = Some "superadmin"
  /\ UserRoles.member "superadmin" = false
  /\ UsersService.create superuser (calm "NaCl") one_user
     = (Throw (Error "Error creating user"),
        mkWorld (db one_user)
                [("Error creating user:",
                  ErrorInstance "invalid input value for enum")])
  /\ ~ (exists u,
          In u (rows (db (snd (UsersService.create superuser (calm "NaCl")
                                 one_user))))
          /\ User.role u = "superadmin").
Proof.
  repeat split. simpl. intros [u [[<-|[]] Hrole]]. discriminate Hrole.
Qed.


(** ** Further runs *)

Lemma create_lookup_failure_witness :
  UsersService.create jane flaky_lookup initial_world
  = (Throw (ErrorInstance "connection lost"), initial_world).
Proof.
  apply (create_lookup_failure jane flaky_lookup initial_world
           (ErrorInstance "connection lost")); reflexivity.
Defined.

Lemma create_hash_failure_witness :
  UsersService.create jane
    (mkEnv "NaCl" None None None (Some (ErrorInstance "out of memory")) None None
           (ErrorInstance "invalid input value for enum"))
    initial_world
  = (Throw (Error "Error creating user"),
     mkWorld initial_store
             [("Error creating user:", ErrorInstance "out of memory")]).
Proof.
  apply (create_hash_failure jane
           (mkEnv "NaCl" None None None (Some (ErrorInstance "out of memory"))
                  None None (ErrorInstance "invalid input value for enum"))
           initial_world (ErrorInstance "out of memory")).
  - reflexivity.
  - simpl. intros u [].
  - reflexivity.
  - reflexivity.
Defined.

Lemma Earlier_create_stores_plaintext_witness :
  Earlier.create jane (calm "NaCl") initial_world
  = (Return (mkResponse Success "User created successfully" 201 null),
     mkWorld
       (mkStore [User.mk 1 "Jane" "Doe" "jane@x.com" "secret123" "user"] 2) []).
Proof.
  apply (Earlier_create_stores_plaintext jane (calm "NaCl") initial_world).
  - reflexivity.
  - simpl. intros u [].
  - reflexivity.
  - reflexivity.
  - reflexivity.
Defined.

Lemma create_versions_agree_witness :
  fst (UsersService.create superuser (calm "NaCl") one_user)
  = fst (Earlier.create superuser (calm "NaCl") one_user)
  /\ console (snd (UsersService.create superuser (calm "NaCl") one_user))
     = console (snd (Earlier.create superuser (calm "NaCl") one_user))
  /\ nextId (db (snd (UsersService.create superuser (calm "NaCl") one_user)))
     = nextId (db (snd (Earlier.create superuser (calm "NaCl") one_user)))
  /\ map without_password
         (rows (db (snd (UsersService.create superuser (calm "NaCl") one_user))))
     = map without_password
           (rows (db (snd (Earlier.create superuser (calm "NaCl") one_user)))).
Proof.
  apply (create_versions_agree superuser (calm "NaCl") one_user). reflexivity.
Defined.

Lemma login_success_sound_witness :
  exists user,
    In user [jane_row]
    /\ User.email user = "jane@x.com"
    /\ "jane@x.com" <> ""
    /\ bcrypt.matches "secret123" (User.password user) = true
    /\ mkResponse Success "Login successful" 200 (token "jwt.jane@x.com")
       = mkResponse Success "Login successful" 200
                    (token (jwtService.encode (LoginPayload user)))
    /\ one_user = one_user.
Proof.
  apply (login_success_sound
           (LoginDto.mk (Some "jane@x.com") (Some "secret123")) (calm "")
           one_user one_user
           (mkResponse Success "Login successful" 200 (token "jwt.jane@x.com")));
    reflexivity.
Defined.

Lemma login_sign_failure_witness :
  UsersService.login (LoginDto.mk (Some "jane@x.com") (Some "secret123"))
    (mkEnv "" None None None None None (Some (ErrorInstance "secret missing"))
           (ErrorInstance "invalid input value for enum"))
    one_user
  = (Return (mkResponse Failure "secret missing" 400 null),
     mkWorld (mkStore [jane_row] 2)
             [("Error during login:", ErrorInstance "secret missing")]).
Proof.
  apply (login_sign_failure
           (LoginDto.mk (Some "jane@x.com") (Some "secret123"))
           (mkEnv "" None None None None None
                  (Some (ErrorInstance "secret missing"))
                  (ErrorInstance "invalid input value for enum"))
           one_user jane_row (ErrorInstance "secret missing"));
    reflexivity.
Defined.

Lemma getAllUsers_query_failure_witness :
  UsersService.getAllUsers
    (mkEnv "" None None (Some (ErrorInstance "connection lost")) None None None
           (ErrorInstance "invalid input value for enum"))
    one_user
  = (Return (mkResponse Failure "connection lost" 400 null),
     mkWorld (mkStore [jane_row] 2)
             [("Error retrieving users:", ErrorInstance "connection lost")])
  /\ Earlier.getAllUsers
       (mkEnv "" None None (Some (ErrorInstance "connection lost")) None None None
           (ErrorInstance "invalid input value for enum"))
       one_user
     = (Return (mkResponse Failure "Error retrieving users" 400 null),
        mkWorld (mkStore [jane_row] 2)
                [("Error retrieving users:", ErrorInstance "connection lost")]).
Proof.
  apply (getAllUsers_query_failure
           (mkEnv "" None None (Some (ErrorInstance "connection lost"))
                  None None None (ErrorInstance "invalid input value for enum"))
           one_user (ErrorInstance "connection lost")).
  reflexivity.
Defined.

(** Jane registers, registers again, Sam's registration loses its save,
    Sam registers, both log in and the users are listed. *)
Lemma store_invariant_witness :
  store_ok
    (db (serve_all
           [ (Create jane, calm "NaCl");
             (Create jane, calm "KCl");
             (Create superuser, flaky_save);
             (Create superuser, calm "KCl");
             (Login (LoginDto.mk (Some "jane@x.com") (Some "secret123")), calm "");
             (Login (LoginDto.mk (Some "sam@x.com") (Some "hunter2")), flaky_lookup);
             (GetAllUsers, calm "");
             (Remove (Number_of_Z 1), calm "") ]
           initial_world)).
Proof.
  apply store_invariant.
  unfold store_ok. simpl. repeat split; constructor.
Defined.

Lemma register_then_login_witness :
  UsersService.login (LoginDto.mk (Some "sam@x.com") (Some "hunter2")) (calm "")
    (snd (UsersService.create sam (calm "NaCl") one_user))
  = (Return
       (mkResponse Success "Login successful" 200
          (token
             (jwtService.encode
                [ ("userId", JsNumber 2);
                  ("firstName", JsString "Sam");
                  ("lastName", JsString "Roe");
                  ("email", JsString "sam@x.com");
                  ("role", JsString "admin") ]))),
     snd (UsersService.create sam (calm "NaCl") one_user)).
Proof.
  apply (register_then_login sam (calm "NaCl") (calm "") one_user
           sample_matches_digest); try reflexivity.
  simpl. intros u [<-|[]]. discriminate.
Defined.

Lemma register_twice_witness :
  UsersService.create
    (CreateUserDto.mk (Some "Janet") (Some "Dean") (Some "jane@x.com")
                      (Some "other") (Some "admin"))
    (calm "KCl")
    (snd (UsersService.create jane (calm "NaCl") initial_world))
  = (Return (mkResponse Failure "User with this email already exists" 400 null),
     snd (UsersService.create jane (calm "NaCl") initial_world))
  /\ length (rows (db (snd (UsersService.create jane (calm "NaCl") initial_world))))
     = 1%nat.
Proof.
  apply (register_twice jane
           (CreateUserDto.mk (Some "Janet") (Some "Dean") (Some "jane@x.com")
                             (Some "other") (Some "admin"))
           (calm "NaCl") (calm "KCl") initial_world); try reflexivity.
  simpl. intros u [].
Defined.

Lemma listing_after_registrations_witness :
  exists added entries,
    rows (db (serve_all
                (map as_call [(jane, calm "NaCl"); (sam, calm "KCl")])
                initial_world))
    = ([] ++ added)%list
    /\ map User.email added = ["jane@x.com"; "sam@x.com"]
    /\ map User.id added = [1%Z; 2%Z]
    /\ UsersService.getAllUsers (calm "")
         (serve_all (map as_call [(jane, calm "NaCl"); (sam, calm "KCl")])
                    initial_world)
       = (Return (mkResponse Success "Users retrieved successfully" 200
                             (array entries)),
          serve_all (map as_call [(jane, calm "NaCl"); (sam, calm "KCl")])
                    initial_world)
    /\ length entries = 2%nat.
Proof.
  apply (listing_after_registrations
           [(jane, calm "NaCl"); (sam, calm "KCl")] (calm "") initial_world).
  - repeat constructor.
  - repeat constructor; simpl; intuition discriminate.
  - simpl. intros reg u _ [].
  - discriminate.
  - reflexivity.
Defined.
